(** * Provider tool registry of agent-girl: [src/server/mcpServers.ts]

    The module is a static table, [MCP_SERVERS_BY_PROVIDER], and two
    accessors, [getMcpServers] and [getAllowedMcpTools].  The table is built
    once from object literals into which two variables of [process.env] are
    interpolated, so the embedding takes the process environment as an
    argument.  Objects used as maps are [gmap]s with string keys; arrays are
    lists; a provider is the string the accessors receive at run time. *)

From stdpp Require Import gmap strings list fin_maps.

Local Open Scope string_scope.
Local Open Scope list_scope.

(** ** The JavaScript the module relies on *)

(** [x || ''] where [x] is a string or [undefined]: the empty string is the
    only falsy string. *)
Definition or_empty (x : option string) : string :=
  match x with
  | Some s => if String.eqb s "" then "" else s
  | None => ""
  end.

(** The names every object literal inherits from [Object.prototype]; each of
    them denotes a function or an object, hence a truthy value. *)
Definition Object_prototype_keys : list string :=
  [ "constructor"; "hasOwnProperty"; "isPrototypeOf"; "propertyIsEnumerable";
    "toLocaleString"; "toString"; "valueOf"; "__proto__";
    "__defineGetter__"; "__defineSetter__";
    "__lookupGetter__"; "__lookupSetter__" ].

(** The outcome of [o[k]] on an object literal [o]. *)
Inductive JsProp (A : Type) : Type :=
  | Own (a : A)
  | Inherited (k : string)
  | Undefined.
Arguments Own {A} a.
Arguments Inherited {A} k.
Arguments Undefined {A}.

Definition inherited (k : string) : bool :=
  existsb (String.eqb k) Object_prototype_keys.

Definition js_get {A : Type} (o : gmap string A) (k : string) : JsProp A :=
  match o !! k with
  | Some a => Own a
  | None => if inherited k then Inherited k else Undefined
  end.

(** ** Server descriptors *)

(** A descriptor as the object literal it is: [type] is always written, every
    other property is present or absent.  The interfaces
    [McpHttpServerConfig] and [McpStdioServerConfig] are the two predicates
    below. *)
Record McpServerConfig : Type := {
  type : string;
  url : option string;
  headers : option (gmap string string);
  command : option string;
  args : option (list string);
  env : option (gmap string string)
}.

Definition McpHttpServerConfig (d : McpServerConfig) : bool :=
  String.eqb (type d) "http"
  && bool_decide (is_Some (url d))
  && bool_decide (command d = None)
  && bool_decide (args d = None)
  && bool_decide (env d = None).

Definition McpStdioServerConfig (d : McpServerConfig) : bool :=
  String.eqb (type d) "stdio"
  && bool_decide (is_Some (command d))
  && bool_decide (url d = None)
  && bool_decide (headers d = None).

(** ** The registry *)

Section Registry.
(** [process.env] when the module is loaded. *)
Variable process_env : gmap string string.

(** The table writes the [grep], [supabase] and [sequential-thinking]
    literals once per provider, each time with the same text; they are named
    here and used three times. *)

Definition grep : McpServerConfig :=
  {| type := "http"; url := Some "https://mcp.grep.app"; headers := None;
     command := None; args := None; env := None |}.

Definition supabase : McpServerConfig :=
  {| type := "stdio"; url := None; headers := None;
     command := Some "npx";
     args := Some ["-y"; "@supabase/mcp-server-supabase@latest"];
     env := Some {[ "SUPABASE_ACCESS_TOKEN" :=
                      or_empty (process_env !! "SUPABASE_ACCESS_TOKEN") ]} |}.

Definition sequential_thinking : McpServerConfig :=
  {| type := "stdio"; url := None; headers := None;
     command := Some "npx";
     args := Some ["-y"; "@modelcontextprotocol/server-sequential-thinking"];
     env := None |}.

Definition web_search_prime : McpServerConfig :=
  {| type := "http";
     url := Some "https://api.z.ai/api/mcp/web_search_prime/mcp";
     headers := Some {[ "Authorization" :=
                          "Bearer " +:+ or_empty (process_env !! "ZAI_API_KEY") ]};
     command := None; args := None; env := None |}.

Definition zai_mcp_server : McpServerConfig :=
  {| type := "stdio"; url := None; headers := None;
     command := Some "npx";
     args := Some ["-y"; "@z_ai/mcp-server"];
     env := Some (<[ "Z_AI_API_KEY" := or_empty (process_env !! "ZAI_API_KEY") ]>
                  (<[ "Z_AI_MODE" := "ZAI" ]> ∅)) |}.

Definition web_reader : McpServerConfig :=
  {| type := "http";
     url := Some "https://api.z.ai/api/mcp/web_reader/mcp";
     headers := Some {[ "Authorization" :=
                          "Bearer " +:+ or_empty (process_env !! "ZAI_API_KEY") ]};
     command := None; args := None; env := None |}.

Definition MCP_SERVERS_BY_PROVIDER : gmap string (gmap string McpServerConfig) :=
  <[ "anthropic" :=
       <[ "grep" := grep ]>
       (<[ "supabase" := supabase ]>
       (<[ "sequential-thinking" := sequential_thinking ]> ∅)) ]>
  (<[ "z-ai" :=
       <[ "grep" := grep ]>
       (<[ "web-search-prime" := web_search_prime ]>
       (<[ "zai-mcp-server" := zai_mcp_server ]>
       (<[ "web-reader" := web_reader ]>
       (<[ "supabase" := supabase ]>
       (<[ "sequential-thinking" := sequential_thinking ]> ∅))))) ]>
  (<[ "moonshot" :=
       <[ "grep" := grep ]>
       (<[ "supabase" := supabase ]>
       (<[ "sequential-thinking" := sequential_thinking ]> ∅)) ]> ∅)).

(** What [getMcpServers] hands back: a mapping of descriptors, or, when the
    provider string names a member of [Object.prototype], that member. *)
Inductive ServersResult : Type :=
  | Servers (servers : gmap string McpServerConfig)
  | PrototypeMember (k : string).

(** [MCP_SERVERS_BY_PROVIDER[provider] || {}] *)
Definition getMcpServers (provider : string) (_modelId : option string)
  : ServersResult :=
  match js_get MCP_SERVERS_BY_PROVIDER provider with
  | Own servers => Servers servers
  | Inherited k => PrototypeMember k
  | Undefined => Servers ∅
  end.
End Registry.

(** ** The allow-list *)

Definition grepTools : list string :=
  [ "mcp__grep__searchGitHub" ].

Definition supabaseTools : list string :=
  [ "mcp__supabase__search_docs";
    "mcp__supabase__list_organizations";
    "mcp__supabase__get_organization";
    "mcp__supabase__list_projects";
    "mcp__supabase__get_project";
    "mcp__supabase__list_tables";
    "mcp__supabase__list_extensions";
    "mcp__supabase__list_migrations";
    "mcp__supabase__apply_migration";
    "mcp__supabase__execute_sql";
    "mcp__supabase__get_logs";
    "mcp__supabase__get_advisors";
    "mcp__supabase__get_project_url";
    "mcp__supabase__get_publishable_keys";
    "mcp__supabase__generate_typescript_types";
    "mcp__supabase__list_edge_functions";
    "mcp__supabase__get_edge_function";
    "mcp__supabase__deploy_edge_function" ].

Definition sequentialThinkingTools : list string :=
  [ "mcp__sequential-thinking__sequentialthinking_tools" ].

Definition getAllowedMcpTools (provider : string) (_modelId : option string)
  : list string :=
  if String.eqb provider "anthropic" then
    grepTools ++ supabaseTools ++ sequentialThinkingTools
  else if String.eqb provider "z-ai" then
    grepTools
    ++ [ "mcp__web-search-prime__search";
         "mcp__zai-mcp-server__image_analysis";
         "mcp__zai-mcp-server__video_analysis";
         "mcp__web-reader__webReader" ]
    ++ supabaseTools ++ sequentialThinkingTools
  else if String.eqb provider "moonshot" then
    grepTools ++ supabaseTools ++ sequentialThinkingTools
  else
    [].

(** ** Vocabulary of the specification *)

(** Modelled from the spec: [ProviderType] is imported from
    [../client/config/models], which is not among the sources; the
    specification gives it as the closed set below.  The type is erased at
    run time, where a provider is a string. *)
Definition ProviderType : list string := [ "anthropic"; "z-ai"; "moonshot" ].

(** The "base set" of the specification: the code-search, database and
    reasoning tool sets, in the order in which every branch concatenates
    them. *)
Definition baseTools : list string :=
  grepTools ++ supabaseTools ++ sequentialThinkingTools.

(** [t] is a tool identifier [mcp__<serverName>__<toolName>] of the server
    [serverName]. *)
Definition tool_of (serverName t : string) : Prop :=
  ∃ toolName, toolName ≠ "" ∧ t = "mcp__" +:+ serverName +:+ "__" +:+ toolName.

(** The descriptor invariant: one variant, none of the other's fields. *)
Definition one_variant (d : McpServerConfig) : Prop :=
  xorb (McpHttpServerConfig d) (McpStdioServerConfig d) = true
  ∧ (McpHttpServerConfig d = true →
       type d = "http" ∧ is_Some (url d)
       ∧ command d = None ∧ args d = None ∧ env d = None)
  ∧ (McpStdioServerConfig d = true →
       type d = "stdio" ∧ is_Some (command d)
       ∧ url d = None ∧ headers d = None).

(** The descriptor a provider has under a server name, if any. *)
Definition descriptor (process_env : gmap string string) (p name : string)
  : option McpServerConfig :=
  match MCP_SERVERS_BY_PROVIDER process_env !! p with
  | Some servers => servers !! name
  | None => None
  end.

(** [headers[k]] and [env[k]] of that descriptor; [None] is [undefined]. *)
Definition header_of (process_env : gmap string string) (p name k : string)
  : option string :=
  match descriptor process_env p name with
  | Some d => match headers d with Some h => h !! k | None => None end
  | None => None
  end.

Definition env_of (process_env : gmap string string) (p name k : string)
  : option string :=
  match descriptor process_env p name with
  | Some d => match env d with Some e => e !! k | None => None end
  | None => None
  end.

(** * Properties *)

(** ** Reading the table *)

Lemma or_empty_unset : or_empty None = "".
Proof. reflexivity. Qed.

Lemma or_empty_default (x : option string) : or_empty x = default "" x.
Proof.
  destruct x as [s|]; [|reflexivity]. simpl.
  destruct (String.eqb_spec s ""); congruence.
Qed.

Lemma inherited_spec (k : string) :
  inherited k = true ↔ k ∈ Object_prototype_keys.
Proof.
  unfold inherited. rewrite existsb_exists. split.
  - intros (x & Hx & ->%String.eqb_eq). by apply list_elem_of_In.
  - intros Hk. exists k. split; [by apply list_elem_of_In | apply String.eqb_refl].
Qed.

Ltac split_lookup H :=
  repeat (apply lookup_insert_Some in H;
          destruct H as [[<- <-] | [? H]]);
  try (rewrite lookup_empty in H; discriminate H).

(** The registry has exactly three own keys. *)
Lemma registry_lookup (process_env : gmap string string) (p : string) servers :
  MCP_SERVERS_BY_PROVIDER process_env !! p = Some servers →
  p ∈ ProviderType.
Proof.
  unfold MCP_SERVERS_BY_PROVIDER, ProviderType. intros H.
  split_lookup H; set_solver.
Qed.

Lemma registry_lookup_None (process_env : gmap string string) (p : string) :
  p ∉ ProviderType → MCP_SERVERS_BY_PROVIDER process_env !! p = None.
Proof.
  intros Hp. destruct (MCP_SERVERS_BY_PROVIDER process_env !! p) eqn:E; [|done].
  by apply registry_lookup in E.
Qed.

Lemma registry_lookup_Some (process_env : gmap string string) (p : string) :
  p ∈ ProviderType → is_Some (MCP_SERVERS_BY_PROVIDER process_env !! p).
Proof.
  unfold ProviderType. rewrite !elem_of_cons, elem_of_nil.
  intros [-> | [-> | [-> | []]]]; by eexists.
Qed.

(** For a key of the table, [getMcpServers] returns the entry itself. *)
Lemma getMcpServers_own (process_env : gmap string string) p m servers :
  MCP_SERVERS_BY_PROVIDER process_env !! p = Some servers →
  getMcpServers process_env p m = Servers servers.
Proof. intros H. unfold getMcpServers, js_get. by rewrite H. Qed.

Lemma getMcpServers_Servers (process_env : gmap string string) p m servers :
  getMcpServers process_env p m = Servers servers →
  MCP_SERVERS_BY_PROVIDER process_env !! p = Some servers ∨ servers = ∅.
Proof.
  unfold getMcpServers, js_get.
  destruct (MCP_SERVERS_BY_PROVIDER process_env !! p) as [s|].
  - intros [= <-]. by left.
  - destruct (inherited p); [discriminate|]. intros [= <-]. by right.
Qed.

(** ** The per-server tool sets *)

Ltac solve_tool_of :=
  repeat constructor; (eexists; split; [ | reflexivity ]; discriminate).

Lemma grepTools_server : Forall (tool_of "grep") grepTools.
Proof. unfold grepTools. solve_tool_of. Qed.

Lemma supabaseTools_server : Forall (tool_of "supabase") supabaseTools.
Proof. unfold supabaseTools. solve_tool_of. Qed.

Lemma sequentialThinkingTools_server :
  Forall (tool_of "sequential-thinking") sequentialThinkingTools.
Proof. unfold sequentialThinkingTools. solve_tool_of. Qed.

Lemma baseTools_length : length baseTools = 20.
Proof. reflexivity. Qed.

(** ** The allow-list of each provider *)

(** C1: for z-ai the allow-list is the 24 identifiers below, in this order:
    the code-search tool, the web-search tool, the two media-analysis tools,
    the web-reader tool, the 18 supabase tools, the sequential-thinking
    tool. *)
Theorem getAllowedMcpTools_zai (m : option string) :
  getAllowedMcpTools "z-ai" m =
    [ "mcp__grep__searchGitHub";
      "mcp__web-search-prime__search";
      "mcp__zai-mcp-server__image_analysis";
      "mcp__zai-mcp-server__video_analysis";
      "mcp__web-reader__webReader";
      "mcp__supabase__search_docs";
      "mcp__supabase__list_organizations";
      "mcp__supabase__get_organization";
      "mcp__supabase__list_projects";
      "mcp__supabase__get_project";
      "mcp__supabase__list_tables";
      "mcp__supabase__list_extensions";
      "mcp__supabase__list_migrations";
      "mcp__supabase__apply_migration";
      "mcp__supabase__execute_sql";
      "mcp__supabase__get_logs";
      "mcp__supabase__get_advisors";
      "mcp__supabase__get_project_url";
      "mcp__supabase__get_publishable_keys";
      "mcp__supabase__generate_typescript_types";
      "mcp__supabase__list_edge_functions";
      "mcp__supabase__get_edge_function";
      "mcp__supabase__deploy_edge_function";
      "mcp__sequential-thinking__sequentialthinking_tools" ]
  ∧ length (getAllowedMcpTools "z-ai" m) = 24
  ∧ getAllowedMcpTools "z-ai" m =
      grepTools
      ++ [ "mcp__web-search-prime__search" ]
      ++ [ "mcp__zai-mcp-server__image_analysis";
           "mcp__zai-mcp-server__video_analysis" ]
      ++ [ "mcp__web-reader__webReader" ]
      ++ supabaseTools
      ++ sequentialThinkingTools
  ∧ grepTools = [ "mcp__grep__searchGitHub" ]
  ∧ length supabaseTools = 18
  ∧ Forall (tool_of "supabase") supabaseTools
  ∧ length sequentialThinkingTools = 1
  ∧ Forall (tool_of "sequential-thinking") sequentialThinkingTools.
Proof.
  repeat split; try reflexivity.
  - apply supabaseTools_server.
  - apply sequentialThinkingTools_server.
Qed.

(** C3: for anthropic the allow-list is the 20 identifiers below: the
    code-search tool, then the 18 supabase tools, then the
    sequential-thinking tool. *)
Theorem getAllowedMcpTools_anthropic (m : option string) :
  getAllowedMcpTools "anthropic" m =
    [ "mcp__grep__searchGitHub";
      "mcp__supabase__search_docs";
      "mcp__supabase__list_organizations";
      "mcp__supabase__get_organization";
      "mcp__supabase__list_projects";
      "mcp__supabase__get_project";
      "mcp__supabase__list_tables";
      "mcp__supabase__list_extensions";
      "mcp__supabase__list_migrations";
      "mcp__supabase__apply_migration";
      "mcp__supabase__execute_sql";
      "mcp__supabase__get_logs";
      "mcp__supabase__get_advisors";
      "mcp__supabase__get_project_url";
      "mcp__supabase__get_publishable_keys";
      "mcp__supabase__generate_typescript_types";
      "mcp__supabase__list_edge_functions";
      "mcp__supabase__get_edge_function";
      "mcp__supabase__deploy_edge_function";
      "mcp__sequential-thinking__sequentialthinking_tools" ]
  ∧ length (getAllowedMcpTools "anthropic" m) = 20
  ∧ getAllowedMcpTools "anthropic" m =
      grepTools ++ supabaseTools ++ sequentialThinkingTools
  ∧ length grepTools = 1
  ∧ Forall (tool_of "grep") grepTools
  ∧ length supabaseTools = 18
  ∧ Forall (tool_of "supabase") supabaseTools
  ∧ length sequentialThinkingTools = 1
  ∧ Forall (tool_of "sequential-thinking") sequentialThinkingTools.
Proof.
  repeat split; try reflexivity.
  - apply grepTools_server.
  - apply supabaseTools_server.
  - apply sequentialThinkingTools_server.
Qed.

(** C4: whatever model identifiers are passed, the allow-list of moonshot is
    the allow-list of anthropic, element for element. *)
Theorem getAllowedMcpTools_moonshot_anthropic (m1 m2 : option string) :
  getAllowedMcpTools "moonshot" m1 = getAllowedMcpTools "anthropic" m2
  ∧ ∀ i : nat,
      getAllowedMcpTools "moonshot" m1 !! i
      = getAllowedMcpTools "anthropic" m2 !! i.
Proof. split; [reflexivity | intros i; reflexivity]. Qed.

(** C2 as stated, refuted: the allow-list of z-ai is not the base set with
    five further identifiers, in whatever order they are merged. *)
Lemma getAllowedMcpTools_zai_not_five_extras :
  ¬ ∃ extras : list string,
      length extras = 5
      ∧ getAllowedMcpTools "z-ai" None ≡ₚ baseTools ++ extras.
Proof.
  intros (extras & Hlen & Hperm).
  apply Permutation_length in Hperm.
  rewrite length_app, Hlen in Hperm. discriminate Hperm.
Qed.

(** C2, amended: the allow-list of z-ai is the base set with four further
    identifiers (web search, image analysis, video analysis, web reader),
    none of them in the base set, inserted after the code-search tools; the
    base set keeps its order. *)
Theorem getAllowedMcpTools_zai_four_extras (m : option string) :
  let extras := [ "mcp__web-search-prime__search";
                  "mcp__zai-mcp-server__image_analysis";
                  "mcp__zai-mcp-server__video_analysis";
                  "mcp__web-reader__webReader" ] in
  length extras = 4
  ∧ NoDup extras
  ∧ (∀ t, t ∈ extras → t ∉ baseTools)
  ∧ getAllowedMcpTools "z-ai" m
    = grepTools ++ extras ++ supabaseTools ++ sequentialThinkingTools
  ∧ getAllowedMcpTools "z-ai" m ≡ₚ baseTools ++ extras
  ∧ filter (λ t, t ∈ baseTools) (getAllowedMcpTools "z-ai" m) = baseTools
  ∧ filter (λ t, t ∉ baseTools) (getAllowedMcpTools "z-ai" m) = extras
  ∧ length (getAllowedMcpTools "z-ai" m) = length baseTools + 4.
Proof.
  intros extras.
  assert (Hfresh : Forall (λ t, t ∉ baseTools) extras).
  { apply (bool_decide_unpack _). vm_compute. reflexivity. }
  split; [reflexivity|].
  split; [apply (bool_decide_unpack _); vm_compute; reflexivity|].
  split; [by apply Forall_forall|].
  split; [reflexivity|].
  split.
  { change (getAllowedMcpTools "z-ai" m)
      with (grepTools ++ extras ++ supabaseTools ++ sequentialThinkingTools).
    unfold baseTools. rewrite <- (assoc_L (++) grepTools).
    apply Permutation_app_head, Permutation_app_comm. }
  split; [vm_compute; reflexivity|].
  split; [vm_compute; reflexivity|].
  reflexivity.
Qed.

(** ** Providers outside the table *)

Lemma getAllowedMcpTools_unknown (p : string) (m : option string) :
  p ∉ ProviderType → getAllowedMcpTools p m = [].
Proof.
  unfold ProviderType, getAllowedMcpTools. intros Hp.
  destruct (String.eqb_spec p "anthropic") as [->|_]; [set_solver|].
  destruct (String.eqb_spec p "z-ai") as [->|_]; [set_solver|].
  destruct (String.eqb_spec p "moonshot") as [->|_]; [set_solver|].
  reflexivity.
Qed.

(** Every outcome of [getMcpServers]: the entry of a known provider, the
    inherited member a provider string happens to name, or the empty object
    of the fallback. *)
Lemma getMcpServers_cases (process_env : gmap string string) p m :
  (p ∈ ProviderType
   ∧ ∃ servers, MCP_SERVERS_BY_PROVIDER process_env !! p = Some servers
                ∧ getMcpServers process_env p m = Servers servers)
  ∨ ((p ∉ ProviderType) ∧ p ∈ Object_prototype_keys
     ∧ getMcpServers process_env p m = PrototypeMember p)
  ∨ ((p ∉ ProviderType) ∧ (p ∉ Object_prototype_keys)
     ∧ getMcpServers process_env p m = Servers ∅).
Proof.
  destruct (decide (p ∈ ProviderType)) as [Hp|Hp].
  - left. split; [done|].
    destruct (registry_lookup_Some process_env p Hp) as [servers Hs].
    exists servers. split; [done|]. by apply getMcpServers_own.
  - right. unfold getMcpServers, js_get.
    rewrite (registry_lookup_None _ _ Hp).
    destruct (inherited p) eqn:E.
    + left. by apply inherited_spec in E.
    + right. split; [done|]. split; [|done].
      rewrite <- inherited_spec. by rewrite E.
Qed.

(** C5: the claim is what the [|| {}] of [getMcpServers] is written for, and
    the code misses it at ["constructor"].  That string is no known provider
    and [getAllowedMcpTools] answers it with the empty sequence, but the
    lookup in the table finds the member of that name every object literal
    inherits; it is truthy, the fallback is not taken, and [getMcpServers]
    returns it in place of the empty mapping.  So it is in every environment
    and for every model identifier. *)
Theorem getMcpServers_constructor
    (process_env : gmap string string) (m : option string) :
  ("constructor" ∉ ProviderType)
  ∧ MCP_SERVERS_BY_PROVIDER process_env !! "constructor" = None
  ∧ getAllowedMcpTools "constructor" m = []
  ∧ getMcpServers process_env "constructor" m = PrototypeMember "constructor"
  ∧ getMcpServers process_env "constructor" m ≠ Servers ∅.
Proof.
  assert (Hp : "constructor" ∉ ProviderType)
    by (apply (bool_decide_unpack _); vm_compute; reflexivity).
  assert (Hget : getMcpServers process_env "constructor" m
                 = PrototypeMember "constructor").
  { unfold getMcpServers, js_get.
    by rewrite (registry_lookup_None _ _ Hp). }
  split; [exact Hp|].
  split; [by apply registry_lookup_None|].
  split; [reflexivity|].
  split; [exact Hget|]. rewrite Hget. discriminate.
Qed.

(** ** Known providers *)

(** C6: for each known provider the mapping returned by [getMcpServers] has a
    server named [grep], an HTTP descriptor whose url is
    [https://mcp.grep.app]. *)
Theorem getMcpServers_grep
    (process_env : gmap string string) (p : string) (m : option string) :
  p ∈ ProviderType →
  ∃ servers d,
    getMcpServers process_env p m = Servers servers
    ∧ servers !! "grep" = Some d
    ∧ type d = "http"
    ∧ McpHttpServerConfig d = true
    ∧ url d = Some "https://mcp.grep.app".
Proof.
  unfold ProviderType. rewrite !elem_of_cons, elem_of_nil.
  intros [-> | [-> | [-> | []]]];
    (eexists; exists grep; split; [apply getMcpServers_own; reflexivity|];
     repeat split; reflexivity).
Qed.

Lemma getMcpServers_grep_witness :
  ∃ servers d,
    getMcpServers ∅ "moonshot" None = Servers servers
    ∧ servers !! "grep" = Some d
    ∧ type d = "http"
    ∧ McpHttpServerConfig d = true
    ∧ url d = Some "https://mcp.grep.app".
Proof.
  apply (getMcpServers_grep ∅ "moonshot" None).
  apply (bool_decide_unpack _). vm_compute. reflexivity.
Defined.

(** C7: the model identifier has no influence: for every provider and any
    two model identifiers, absent or not, both accessors return the same
    result. *)
Theorem modelId_no_influence
    (process_env : gmap string string) (p : string) (m1 m2 : option string) :
  getAllowedMcpTools p m1 = getAllowedMcpTools p m2
  ∧ getMcpServers process_env p m1 = getMcpServers process_env p m2.
Proof. split; reflexivity. Qed.

(** ** Descriptors *)

Ltac solve_one_variant :=
  split; [reflexivity|];
  split; intros Hv; first [ discriminate Hv | repeat split; by eauto ].

Lemma grep_one_variant : one_variant grep.
Proof. solve_one_variant. Qed.

Lemma supabase_one_variant penv : one_variant (supabase penv).
Proof. solve_one_variant. Qed.

Lemma sequential_thinking_one_variant : one_variant sequential_thinking.
Proof. solve_one_variant. Qed.

Lemma web_search_prime_one_variant penv : one_variant (web_search_prime penv).
Proof. solve_one_variant. Qed.

Lemma zai_mcp_server_one_variant penv : one_variant (zai_mcp_server penv).
Proof. solve_one_variant. Qed.

Lemma web_reader_one_variant penv : one_variant (web_reader penv).
Proof. solve_one_variant. Qed.

Create HintDb descriptors.
#[local] Hint Resolve grep_one_variant supabase_one_variant
  sequential_thinking_one_variant web_search_prime_one_variant
  zai_mcp_server_one_variant web_reader_one_variant : descriptors.

(** The invariant holds of the whole table. *)
Lemma registry_one_variant (process_env : gmap string string) :
  map_Forall (λ _ servers, map_Forall (λ _ d, one_variant d) servers)
    (MCP_SERVERS_BY_PROVIDER process_env).
Proof.
  unfold MCP_SERVERS_BY_PROVIDER.
  repeat first
    [ apply map_Forall_empty
    | apply map_Forall_insert_2; [ auto with descriptors | ] ].
Qed.

(** C9: every descriptor of the table, and every descriptor of a mapping
    returned by [getMcpServers], is of exactly one variant, HTTP or process,
    and has none of the other variant's fields. *)
Theorem descriptors_one_variant
    (process_env : gmap string string) (p name : string) (d : McpServerConfig) :
  (∃ servers, MCP_SERVERS_BY_PROVIDER process_env !! p = Some servers
              ∧ servers !! name = Some d)
  ∨ (∃ m servers, getMcpServers process_env p m = Servers servers
                  ∧ servers !! name = Some d) →
  (type d = "http" ∨ type d = "stdio")
  ∧ one_variant d
  ∧ (type d = "http" →
       is_Some (url d) ∧ command d = None ∧ args d = None ∧ env d = None)
  ∧ (type d = "stdio" →
       is_Some (command d) ∧ url d = None ∧ headers d = None).
Proof.
  intros H.
  assert (Hreg : ∃ servers, MCP_SERVERS_BY_PROVIDER process_env !! p = Some servers
                            ∧ servers !! name = Some d).
  { destruct H as [H | (m & servers & Hget & Hd)]; [exact H|].
    apply getMcpServers_Servers in Hget as [Hget | ->].
    - by exists servers.
    - by rewrite lookup_empty in Hd. }
  destruct Hreg as (servers & Hs & Hd).
  pose proof (registry_one_variant process_env p servers Hs name d Hd)
    as (Hx & Hhttp & Hstdio).
  assert (Htag : (McpHttpServerConfig d = true ∧ McpStdioServerConfig d = false)
                 ∨ (McpHttpServerConfig d = false ∧ McpStdioServerConfig d = true)).
  { destruct (McpHttpServerConfig d), (McpStdioServerConfig d);
      simpl in Hx; try discriminate Hx; auto. }
  split; [|split; [done|split]].
  - destruct Htag as [[Hh _] | [_ Hp]]; [left; by apply Hhttp | right; by apply Hstdio].
  - intros Ht. destruct Htag as [[Hh _] | [_ Hp]].
    + by apply Hhttp.
    + destruct (Hstdio Hp) as [Ht' _]. congruence.
  - intros Ht. destruct Htag as [[Hh _] | [_ Hp]].
    + destruct (Hhttp Hh) as [Ht' _]. congruence.
    + by apply Hstdio.
Qed.

Lemma descriptors_one_variant_witness :
  one_variant (web_reader ∅) ∧ one_variant (supabase ∅).
Proof.
  split.
  - refine (proj1 (proj2 (descriptors_one_variant ∅ "z-ai" "web-reader" (web_reader ∅) _))).
    left. eexists. split; reflexivity.
  - refine (proj1 (proj2 (descriptors_one_variant ∅ "anthropic" "supabase" (supabase ∅) _))).
    right. exists None. eexists. split; reflexivity.
Defined.

(** ** Credentials *)

(** C8: when neither [SUPABASE_ACCESS_TOKEN] nor [ZAI_API_KEY] is set as the
    table is built, every [Authorization] header of the table is present and
    is ["Bearer "] followed by the empty string, and every credential
    injected into a process descriptor's environment is present and is the
    empty string. *)
Theorem unset_credentials (process_env : gmap string string) :
  process_env !! "SUPABASE_ACCESS_TOKEN" = None →
  process_env !! "ZAI_API_KEY" = None →
  (* the descriptors that carry a credential *)
  header_of process_env "z-ai" "web-search-prime" "Authorization"
    = Some ("Bearer " +:+ "")
  ∧ header_of process_env "z-ai" "web-reader" "Authorization"
    = Some ("Bearer " +:+ "")
  ∧ env_of process_env "z-ai" "zai-mcp-server" "Z_AI_API_KEY" = Some ""
  ∧ (∀ p, p ∈ ProviderType →
       env_of process_env p "supabase" "SUPABASE_ACCESS_TOKEN" = Some "")
  (* and no other descriptor says otherwise *)
  ∧ (∀ p name d h,
       descriptor process_env p name = Some d → headers d = Some h →
       h = {[ "Authorization" := "Bearer " ]})
  ∧ (∀ p name d e k v,
       descriptor process_env p name = Some d → env d = Some e →
       e !! k = Some v → k ≠ "Z_AI_MODE" → v = "").
Proof.
  intros Hsupa Hzai.
  assert (Hws : web_search_prime process_env = web_search_prime ∅)
    by (unfold web_search_prime; by rewrite Hzai).
  assert (Hwr : web_reader process_env = web_reader ∅)
    by (unfold web_reader; by rewrite Hzai).
  assert (Hz : zai_mcp_server process_env = zai_mcp_server ∅)
    by (unfold zai_mcp_server; by rewrite Hzai).
  assert (Hsb : supabase process_env = supabase ∅)
    by (unfold supabase; by rewrite Hsupa).
  assert (Hreg : MCP_SERVERS_BY_PROVIDER process_env = MCP_SERVERS_BY_PROVIDER ∅)
    by (unfold MCP_SERVERS_BY_PROVIDER; by rewrite Hws, Hwr, Hz, Hsb).
  unfold header_of, env_of, descriptor. rewrite Hreg. clear.
  split; [vm_compute; reflexivity|].
  split; [vm_compute; reflexivity|].
  split; [vm_compute; reflexivity|].
  split.
  { unfold ProviderType. intros p. rewrite !elem_of_cons, elem_of_nil.
    intros [-> | [-> | [-> | []]]]; vm_compute; reflexivity. }
  split.
  - intros p name d h Hd Hh.
    destruct (MCP_SERVERS_BY_PROVIDER ∅ !! p) as [servers|] eqn:Hs;
      [|discriminate Hd].
    unfold MCP_SERVERS_BY_PROVIDER in Hs.
    split_lookup Hs; split_lookup Hd; simpl in Hh; try discriminate Hh;
      by injection Hh as <-.
  - intros p name d e k v Hd He Hk Hne.
    destruct (MCP_SERVERS_BY_PROVIDER ∅ !! p) as [servers|] eqn:Hs;
      [|discriminate Hd].
    unfold MCP_SERVERS_BY_PROVIDER in Hs.
    split_lookup Hs; split_lookup Hd; simpl in He; try discriminate He;
      injection He as <-; split_lookup Hk;
      try (apply lookup_singleton_Some in Hk as [<- <-]);
      first [ reflexivity | congruence ].
Qed.

Lemma unset_credentials_witness :
  header_of ∅ "z-ai" "web-reader" "Authorization" = Some "Bearer ".
Proof.
  refine (proj1 (proj2 (unset_credentials ∅ _ _))); reflexivity.
Defined.

(** ** The allow-list against the registry *)

(** The tools a branch writes in line, for the servers only z-ai has. *)
Lemma zai_tools_server :
  tool_of "web-search-prime" "mcp__web-search-prime__search"
  ∧ tool_of "zai-mcp-server" "mcp__zai-mcp-server__image_analysis"
  ∧ tool_of "zai-mcp-server" "mcp__zai-mcp-server__video_analysis"
  ∧ tool_of "web-reader" "mcp__web-reader__webReader".
Proof.
  repeat split; (eexists; split; [ | reflexivity ]; discriminate).
Qed.

(** The three servers of the base set are keys of every known provider. *)
Lemma base_servers_registered (process_env : gmap string string) p :
  p ∈ ProviderType →
  ∃ servers,
    MCP_SERVERS_BY_PROVIDER process_env !! p = Some servers
    ∧ is_Some (servers !! "grep")
    ∧ is_Some (servers !! "supabase")
    ∧ is_Some (servers !! "sequential-thinking").
Proof.
  unfold ProviderType. rewrite !elem_of_cons, elem_of_nil.
  intros [-> | [-> | [-> | []]]];
    (eexists; split; [reflexivity|]; repeat split; by eexists).
Qed.

Lemma zai_servers_registered (process_env : gmap string string) :
  ∃ servers,
    MCP_SERVERS_BY_PROVIDER process_env !! "z-ai" = Some servers
    ∧ is_Some (servers !! "web-search-prime")
    ∧ is_Some (servers !! "zai-mcp-server")
    ∧ is_Some (servers !! "web-reader").
Proof. eexists; split; [reflexivity|]; repeat split; by eexists. Qed.

Lemma base_tools_registered (process_env : gmap string string) p servers t :
  p ∈ ProviderType →
  MCP_SERVERS_BY_PROVIDER process_env !! p = Some servers →
  t ∈ grepTools ++ supabaseTools ++ sequentialThinkingTools →
  ∃ serverName, is_Some (servers !! serverName) ∧ tool_of serverName t.
Proof.
  intros Hp Hs Ht.
  destruct (base_servers_registered process_env p Hp)
    as (servers' & Hs' & Hgrep & Hsupa & Hseq).
  rewrite Hs in Hs'. injection Hs' as <-.
  rewrite !elem_of_app in Ht. destruct Ht as [Ht | [Ht | Ht]].
  - exists "grep". split; [done|].
    by apply (proj1 (Forall_forall _ _) grepTools_server).
  - exists "supabase". split; [done|].
    by apply (proj1 (Forall_forall _ _) supabaseTools_server).
  - exists "sequential-thinking". split; [done|].
    by apply (proj1 (Forall_forall _ _) sequentialThinkingTools_server).
Qed.

(** C10: for every provider, every identifier of the allow-list is
    [mcp__<serverName>__<toolName>] for a server name that is a key of the
    mapping [getMcpServers] returns for that provider. *)
Theorem allowed_tools_registered
    (process_env : gmap string string) (p : string) (m1 m2 : option string)
    (t : string) :
  t ∈ getAllowedMcpTools p m1 →
  ∃ servers serverName toolName,
    getMcpServers process_env p m2 = Servers servers
    ∧ is_Some (servers !! serverName)
    ∧ toolName ≠ ""
    ∧ t = "mcp__" +:+ serverName +:+ "__" +:+ toolName.
Proof.
  intros Ht.
  assert (Hp : p ∈ ProviderType).
  { destruct (decide (p ∈ ProviderType)) as [|Hn]; [done|].
    rewrite (getAllowedMcpTools_unknown p m1 Hn) in Ht.
    by apply elem_of_nil in Ht. }
  destruct (registry_lookup_Some process_env p Hp) as [servers Hs].
  exists servers.
  cut (∃ serverName, is_Some (servers !! serverName) ∧ tool_of serverName t).
  { intros (serverName & Hkey & toolName & Hne & ->).
    exists serverName, toolName.
    split; [by apply getMcpServers_own|]. by repeat split. }
  unfold getAllowedMcpTools in Ht.
  destruct (String.eqb_spec p "anthropic") as [->|_];
    [by eapply base_tools_registered|].
  destruct (String.eqb_spec p "z-ai") as [->|_].
  - destruct (zai_servers_registered process_env)
      as (servers' & Hs' & Hweb & Hzai & Hreader).
    rewrite Hs in Hs'. injection Hs' as <-.
    destruct zai_tools_server as (Tweb & Timg & Tvid & Tread).
    rewrite !elem_of_app, !elem_of_cons, elem_of_nil in Ht.
    destruct Ht as [Ht | [[-> | [-> | [-> | [-> | []]]]] | Ht]].
    + eapply base_tools_registered; [done..|]. rewrite elem_of_app. by left.
    + by exists "web-search-prime".
    + by exists "zai-mcp-server".
    + by exists "zai-mcp-server".
    + by exists "web-reader".
    + eapply base_tools_registered; [done..|]. rewrite !elem_of_app. by right.
  - destruct (String.eqb_spec p "moonshot") as [->|_];
      [by eapply base_tools_registered|].
    by apply elem_of_nil in Ht.
Qed.

Lemma allowed_tools_registered_witness :
  ∃ servers serverName toolName,
    getMcpServers ∅ "z-ai" None = Servers servers
    ∧ is_Some (servers !! serverName)
    ∧ toolName ≠ ""
    ∧ "mcp__web-reader__webReader"
      = "mcp__" +:+ serverName +:+ "__" +:+ toolName.
Proof.
  apply (allowed_tools_registered ∅ "z-ai" None None).
  apply (bool_decide_unpack _). vm_compute. reflexivity.
Defined.

(** * Further properties of the table and its accessors *)

(** ** Where the environment goes *)

Ltac open_descriptor H p servers d Hs Hd :=
  match type of H with
  | context [descriptor ?penv p ?name] =>
      unfold descriptor in H;
      destruct (MCP_SERVERS_BY_PROVIDER penv !! p) as [servers|] eqn:Hs;
        [|discriminate H];
      destruct (servers !! name) as [d|] eqn:Hd; [|discriminate H];
      unfold MCP_SERVERS_BY_PROVIDER in Hs
  end.

(** X1: the headers of the whole table.  A header exists exactly on the two
    HTTP servers of z-ai, [web-search-prime] and [web-reader]; it is
    [Authorization], and its value is ["Bearer "] followed by the value of
    [ZAI_API_KEY], or by nothing when the variable is unset. *)
Theorem header_of_spec
    (process_env : gmap string string) (p name k v : string) :
  header_of process_env p name k = Some v ↔
  p = "z-ai"
  ∧ (name = "web-search-prime" ∨ name = "web-reader")
  ∧ k = "Authorization"
  ∧ v = "Bearer " +:+ default "" (process_env !! "ZAI_API_KEY").
Proof.
  rewrite <- or_empty_default. split.
  - unfold header_of. intros H.
    open_descriptor H p servers d Hs Hd.
    destruct (headers d) as [h|] eqn:Hh; [|discriminate H].
    split_lookup Hs; split_lookup Hd; simpl in Hh; try discriminate Hh;
      injection Hh as <-;
      apply lookup_singleton_Some in H as [<- <-]; auto.
  - intros (-> & [-> | ->] & -> & ->); reflexivity.
Qed.

(** X2: the variables injected into launched processes, over the whole
    table.  [supabase] receives [SUPABASE_ACCESS_TOKEN] under every known
    provider; [zai-mcp-server] receives [Z_AI_API_KEY], the value of
    [ZAI_API_KEY], and the constant [Z_AI_MODE]; nothing else is injected
    anywhere. *)
Theorem env_of_spec
    (process_env : gmap string string) (p name k v : string) :
  env_of process_env p name k = Some v ↔
  (p ∈ ProviderType ∧ name = "supabase" ∧ k = "SUPABASE_ACCESS_TOKEN"
   ∧ v = default "" (process_env !! "SUPABASE_ACCESS_TOKEN"))
  ∨ (p = "z-ai" ∧ name = "zai-mcp-server"
     ∧ ((k = "Z_AI_API_KEY" ∧ v = default "" (process_env !! "ZAI_API_KEY"))
        ∨ (k = "Z_AI_MODE" ∧ v = "ZAI"))).
Proof.
  rewrite <- !or_empty_default. split.
  - unfold env_of. intros H.
    open_descriptor H p servers d Hs Hd.
    destruct (env d) as [e|] eqn:He; [|discriminate H].
    unfold ProviderType.
    split_lookup Hs; split_lookup Hd; simpl in He; try discriminate He;
      injection He as <-;
      first [ apply lookup_singleton_Some in H as [<- <-];
              left; repeat split; set_solver
            | split_lookup H; right; auto ].
  - unfold ProviderType. rewrite !elem_of_cons, elem_of_nil.
    intros [([-> | [-> | [-> | []]]] & -> & -> & ->)
           | (-> & -> & [[-> ->] | [-> ->]])]; reflexivity.
Qed.

(** The table is a function of the two values [x || ''] alone. *)
Lemma registry_env (penv1 penv2 : gmap string string) :
  or_empty (penv1 !! "SUPABASE_ACCESS_TOKEN")
    = or_empty (penv2 !! "SUPABASE_ACCESS_TOKEN") →
  or_empty (penv1 !! "ZAI_API_KEY") = or_empty (penv2 !! "ZAI_API_KEY") →
  MCP_SERVERS_BY_PROVIDER penv1 = MCP_SERVERS_BY_PROVIDER penv2.
Proof.
  intros Hs Hz.
  unfold MCP_SERVERS_BY_PROVIDER, supabase, web_search_prime, zai_mcp_server,
    web_reader.
  by rewrite Hs, Hz.
Qed.

(** X3: two environments give the same table exactly when they agree on the
    values of [SUPABASE_ACCESS_TOKEN] and [ZAI_API_KEY], an unset variable
    counting as the empty string; no other variable is read. *)
Theorem registry_env_iff (penv1 penv2 : gmap string string) :
  MCP_SERVERS_BY_PROVIDER penv1 = MCP_SERVERS_BY_PROVIDER penv2 ↔
  default "" (penv1 !! "SUPABASE_ACCESS_TOKEN")
    = default "" (penv2 !! "SUPABASE_ACCESS_TOKEN")
  ∧ default "" (penv1 !! "ZAI_API_KEY") = default "" (penv2 !! "ZAI_API_KEY").
Proof.
  split.
  - intros Heq.
    assert (Hs : env_of penv1 "anthropic" "supabase" "SUPABASE_ACCESS_TOKEN"
                 = env_of penv2 "anthropic" "supabase" "SUPABASE_ACCESS_TOKEN")
      by (unfold env_of, descriptor; by rewrite Heq).
    assert (Hz : env_of penv1 "z-ai" "zai-mcp-server" "Z_AI_API_KEY"
                 = env_of penv2 "z-ai" "zai-mcp-server" "Z_AI_API_KEY")
      by (unfold env_of, descriptor; by rewrite Heq).
    rewrite <- !or_empty_default.
    split; [by injection Hs | by injection Hz].
  - rewrite <- !or_empty_default. intros [Hs Hz]. by apply registry_env.
Qed.

(** X4: a variable set to the empty string is as good as unset: the table
    built with [v=""] is the table built without [v], for every variable
    name [v]. *)
Theorem registry_empty_unset (process_env : gmap string string) (v : string) :
  MCP_SERVERS_BY_PROVIDER (<[ v := "" ]> process_env)
  = MCP_SERVERS_BY_PROVIDER (delete v process_env).
Proof.
  apply registry_env.
  - destruct (decide (v = "SUPABASE_ACCESS_TOKEN")) as [->|Hne].
    + by rewrite lookup_insert_eq, lookup_delete_eq.
    + by rewrite lookup_insert_ne, lookup_delete_ne.
  - destruct (decide (v = "ZAI_API_KEY")) as [->|Hne].
    + by rewrite lookup_insert_eq, lookup_delete_eq.
    + by rewrite lookup_insert_ne, lookup_delete_ne.
Qed.

(** X5: the Z.AI key stays with z-ai: for every other provider string the
    result of [getMcpServers] is the same whatever [ZAI_API_KEY] is set
    to. *)
Theorem zai_key_only_for_zai
    (process_env : gmap string string) (key p : string) (m : option string) :
  p ≠ "z-ai" →
  getMcpServers (<[ "ZAI_API_KEY" := key ]> process_env) p m
  = getMcpServers process_env p m.
Proof.
  intros Hp. set (penv' := <[ "ZAI_API_KEY" := key ]> process_env).
  assert (Hsupa : supabase penv' = supabase process_env).
  { unfold supabase, penv'. by rewrite lookup_insert_ne. }
  assert (Hlook : MCP_SERVERS_BY_PROVIDER penv' !! p
                  = MCP_SERVERS_BY_PROVIDER process_env !! p).
  { unfold MCP_SERVERS_BY_PROVIDER. rewrite Hsupa.
    destruct (decide (p = "anthropic")) as [->|?]; [reflexivity|].
    rewrite !(lookup_insert_ne _ "anthropic") by done.
    by rewrite !(lookup_insert_ne _ "z-ai"). }
  unfold getMcpServers, js_get. by rewrite Hlook.
Qed.

Lemma zai_key_only_for_zai_witness :
  getMcpServers (<[ "ZAI_API_KEY" := "secret" ]> ∅) "moonshot" None
  = getMcpServers ∅ "moonshot" None.
Proof.
  apply (zai_key_only_for_zai ∅ "secret" "moonshot" None). discriminate.
Defined.

(** ** The shape of the descriptors *)

(** A descriptor of a returned mapping is a descriptor of the table. *)
Lemma getMcpServers_descriptor
    (process_env : gmap string string) p m servers name d :
  getMcpServers process_env p m = Servers servers →
  servers !! name = Some d →
  descriptor process_env p name = Some d.
Proof.
  intros Hget Hd. unfold descriptor.
  apply getMcpServers_Servers in Hget as [-> | ->]; [done|].
  by rewrite lookup_empty in Hd.
Qed.

(** X6: every process descriptor [getMcpServers] can return launches [npx]
    with exactly two arguments, [-y] and a package name. *)
Theorem stdio_descriptors_npx
    (process_env : gmap string string) (p : string) (m : option string)
    (servers : gmap string McpServerConfig) (name : string)
    (d : McpServerConfig) :
  getMcpServers process_env p m = Servers servers →
  servers !! name = Some d →
  type d = "stdio" →
  command d = Some "npx"
  ∧ ∃ package, package ≠ "" ∧ args d = Some [ "-y"; package ].
Proof.
  intros Hget Hd Ht.
  pose proof (getMcpServers_descriptor _ _ _ _ _ _ Hget Hd) as H. clear Hget Hd.
  open_descriptor H p servers' d' Hs Hd. injection H as ->.
  split_lookup Hs; split_lookup Hd; simpl in Ht; try discriminate Ht;
    (split; [reflexivity|]; eexists; split; [|reflexivity]; discriminate).
Qed.

Lemma stdio_descriptors_npx_witness :
  command (zai_mcp_server ∅) = Some "npx"
  ∧ ∃ package, package ≠ "" ∧ args (zai_mcp_server ∅) = Some [ "-y"; package ].
Proof.
  eapply (stdio_descriptors_npx ∅ "z-ai" None _ "zai-mcp-server");
    reflexivity.
Defined.

(** X7: every HTTP descriptor [getMcpServers] can return has an [https://]
    url, and one that carries headers has a url under
    [https://api.z.ai/]: the bearer token is sent nowhere else. *)
Theorem http_descriptors_https
    (process_env : gmap string string) (p : string) (m : option string)
    (servers : gmap string McpServerConfig) (name : string)
    (d : McpServerConfig) :
  getMcpServers process_env p m = Servers servers →
  servers !! name = Some d →
  type d = "http" →
  ∃ u, url d = Some u
       ∧ (∃ rest, u = "https://" +:+ rest)
       ∧ (is_Some (headers d) → ∃ path, u = "https://api.z.ai/" +:+ path).
Proof.
  intros Hget Hd Ht.
  pose proof (getMcpServers_descriptor _ _ _ _ _ _ Hget Hd) as H. clear Hget Hd.
  open_descriptor H p servers' d' Hs Hd. injection H as ->.
  split_lookup Hs; split_lookup Hd; simpl in Ht; try discriminate Ht;
    (eexists; split; [reflexivity|]; split; [by eexists|]; simpl;
     first [ by intros [? [=]] | intros _; by eexists ]).
Qed.

Lemma http_descriptors_https_witness :
  ∃ u, url (web_reader ∅) = Some u
       ∧ (∃ rest, u = "https://" +:+ rest)
       ∧ (is_Some (headers (web_reader ∅)) →
          ∃ path, u = "https://api.z.ai/" +:+ path).
Proof.
  eapply (http_descriptors_https ∅ "z-ai" None _ "web-reader"); reflexivity.
Defined.

(** ** Providers compared *)

(** X8: z-ai has every server any provider has: a mapping returned by
    [getMcpServers] is included in the mapping returned for z-ai, with the
    same descriptors. *)
Theorem servers_within_zai
    (process_env : gmap string string) (p : string) (m : option string)
    (servers : gmap string McpServerConfig) :
  getMcpServers process_env p m = Servers servers →
  ∃ zai, getMcpServers process_env "z-ai" m = Servers zai ∧ servers ⊆ zai.
Proof.
  intros Hget. eexists. split; [apply getMcpServers_own; reflexivity|].
  apply getMcpServers_Servers in Hget as [Hs | ->];
    [|apply map_empty_subseteq].
  apply map_subseteq_spec. intros name d Hd.
  unfold MCP_SERVERS_BY_PROVIDER in Hs.
  split_lookup Hs; try exact Hd; split_lookup Hd; reflexivity.
Qed.

Lemma servers_within_zai_witness :
  ∃ zai, getMcpServers ∅ "z-ai" None = Servers zai
         ∧ <[ "grep" := grep ]>
             (<[ "supabase" := supabase ∅ ]>
             (<[ "sequential-thinking" := sequential_thinking ]> ∅)) ⊆ zai.
Proof.
  apply (servers_within_zai ∅ "anthropic" None). reflexivity.
Defined.

(** X9: the allow-list of every provider string is a subsequence of the
    allow-list of z-ai, order kept; and it is empty or has the base set as a
    subsequence. *)
Theorem allowed_tools_between (p : string) (m : option string) :
  getAllowedMcpTools p m `sublist_of` getAllowedMcpTools "z-ai" m
  ∧ (getAllowedMcpTools p m = []
     ∨ baseTools `sublist_of` getAllowedMcpTools p m).
Proof.
  assert (Hbase : baseTools `sublist_of` getAllowedMcpTools "z-ai" m).
  { change (getAllowedMcpTools "z-ai" m) with
      (grepTools
       ++ [ "mcp__web-search-prime__search";
            "mcp__zai-mcp-server__image_analysis";
            "mcp__zai-mcp-server__video_analysis";
            "mcp__web-reader__webReader" ]
       ++ supabaseTools ++ sequentialThinkingTools).
    unfold baseTools. apply sublist_app; [done|]. by apply sublist_inserts_l. }
  unfold getAllowedMcpTools at 1 3 4.
  destruct (String.eqb_spec p "anthropic") as [->|_]; [split; [done|by right]|].
  destruct (String.eqb_spec p "z-ai") as [->|_]; [split; [done|by right]|].
  destruct (String.eqb_spec p "moonshot") as [->|_]; [split; [done|by right]|].
  split; [apply sublist_nil_l | by left].
Qed.

(** X10: no allow-list names a tool twice. *)
Theorem allowed_tools_NoDup (p : string) (m : option string) :
  NoDup (getAllowedMcpTools p m).
Proof.
  unfold getAllowedMcpTools.
  repeat (destruct (String.eqb _ _);
          [apply (bool_decide_unpack _); vm_compute; reflexivity|]).
  apply NoDup_nil_2.
Qed.

(** X11: the converse of C10: every server in a mapping returned by
    [getMcpServers] has at least one of its tools on the allow-list of the
    same provider, so no server is configured without an allowed tool. *)
Theorem registered_servers_allowed
    (process_env : gmap string string) (p : string) (m1 m2 : option string)
    (servers : gmap string McpServerConfig) (name : string) :
  getMcpServers process_env p m1 = Servers servers →
  is_Some (servers !! name) →
  ∃ t, t ∈ getAllowedMcpTools p m2 ∧ tool_of name t.
Proof.
  intros Hget [d Hd].
  pose proof (getMcpServers_descriptor _ _ _ _ _ _ Hget Hd) as H. clear Hget Hd.
  open_descriptor H p servers' d' Hs Hd. clear H.
  destruct zai_tools_server as (Tweb & Timg & _ & Tread).
  pose proof (Forall_inv grepTools_server) as Tgrep.
  pose proof (Forall_inv supabaseTools_server) as Tsupa.
  pose proof (Forall_inv sequentialThinkingTools_server) as Tseq.
  split_lookup Hs; split_lookup Hd;
    (eexists; split; [|eassumption];
     apply (bool_decide_unpack _); vm_compute; reflexivity).
Qed.

Lemma registered_servers_allowed_witness :
  ∃ t, t ∈ getAllowedMcpTools "z-ai" None ∧ tool_of "zai-mcp-server" t.
Proof.
  eapply (registered_servers_allowed ∅ "z-ai" None None);
    [reflexivity | by eexists].
Defined.

(** X12: the two accessors agree on which providers exist: the allow-list is
    non-empty exactly for the own keys of the table, which are the three
    known providers; its length is 0, 20 or 24. *)
Theorem accessors_agree_on_providers
    (process_env : gmap string string) (p : string) (m : option string) :
  (getAllowedMcpTools p m ≠ []
   ↔ is_Some (MCP_SERVERS_BY_PROVIDER process_env !! p))
  ∧ (is_Some (MCP_SERVERS_BY_PROVIDER process_env !! p) ↔ p ∈ ProviderType)
  ∧ (length (getAllowedMcpTools p m) = 0
     ∨ length (getAllowedMcpTools p m) = 20
     ∨ length (getAllowedMcpTools p m) = 24).
Proof.
  assert (Hreg : is_Some (MCP_SERVERS_BY_PROVIDER process_env !! p)
                 ↔ p ∈ ProviderType).
  { split; [intros [s Hs]; by eapply registry_lookup
           | apply registry_lookup_Some]. }
  split; [|split; [exact Hreg|]].
  - rewrite Hreg. split.
    + intros Hne. destruct (decide (p ∈ ProviderType)) as [|Hn]; [done|].
      by rewrite (getAllowedMcpTools_unknown p m Hn) in Hne.
    + unfold ProviderType. rewrite !elem_of_cons, elem_of_nil.
      intros [-> | [-> | [-> | []]]]; discriminate.
  - unfold getAllowedMcpTools.
    repeat (destruct (String.eqb _ _); [auto|]). by left.
Qed.

(** X13: [getMcpServers] returns the empty mapping exactly for the provider
    strings that are neither a known provider nor the name of an inherited
    member; a known provider never has an empty mapping. *)
Theorem getMcpServers_empty_iff
    (process_env : gmap string string) (p : string) (m : option string) :
  getMcpServers process_env p m = Servers ∅
  ↔ (p ∉ ProviderType) ∧ (p ∉ Object_prototype_keys).
Proof.
  destruct (getMcpServers_cases process_env p m)
    as [(Hp & servers & Hs & Hget) | [(Hp & Hk & Hget) | (Hp & Hk & Hget)]];
    rewrite Hget.
  - split; [|by intros [? _]]. intros [= ->]. exfalso.
    destruct (base_servers_registered process_env p Hp)
      as (servers' & Hs' & [d Hgrep] & _).
    rewrite Hs in Hs'. injection Hs' as <-.
    by rewrite lookup_empty in Hgrep.
  - split; [discriminate | by intros [_ ?]].
  - by split.
Qed.

(** The [web-reader] descriptor of a result, if it is a mapping that has
    one: what tells the mapping of z-ai from the others. *)
Lemma getMcpServers_eq_web_reader (r1 r2 : ServersResult) :
  r1 = r2 →
  match r1 with Servers s => s !! "web-reader" | PrototypeMember _ => None end
  = match r2 with Servers s => s !! "web-reader" | PrototypeMember _ => None end.
Proof. by intros ->. Qed.

(** X14: among the known providers, two get the same allow-list exactly when
    they get the same servers. *)
Theorem same_tools_iff_same_servers
    (process_env : gmap string string) (p q : string) (m : option string) :
  p ∈ ProviderType → q ∈ ProviderType →
  getAllowedMcpTools p m = getAllowedMcpTools q m
  ↔ getMcpServers process_env p m = getMcpServers process_env q m.
Proof.
  unfold ProviderType. intros Hp Hq.
  rewrite !elem_of_cons, elem_of_nil in Hp, Hq.
  destruct Hp as [-> | [-> | [-> | []]]], Hq as [-> | [-> | [-> | []]]];
    first
      [ by split
      | split; intros H;
        [ discriminate H
        | apply getMcpServers_eq_web_reader in H; discriminate H ] ].
Qed.

Lemma same_tools_iff_same_servers_witness :
  getAllowedMcpTools "moonshot" None = getAllowedMcpTools "anthropic" None
  ↔ getMcpServers ∅ "moonshot" None = getMcpServers ∅ "anthropic" None.
Proof.
  apply (same_tools_iff_same_servers ∅ "moonshot" "anthropic" None);
    apply (bool_decide_unpack _); vm_compute; reflexivity.
Defined.

(** X15: an identifier belongs to one server only: if it reads
    [mcp__<s1>__<tool>] and [mcp__<s2>__<tool'>] for two servers of a mapping
    returned by [getMcpServers], then [s1] is [s2] and the tool names are the
    same. *)
Theorem tool_server_unique
    (process_env : gmap string string) (p : string) (m : option string)
    (servers : gmap string McpServerConfig) (s1 s2 tool1 tool2 : string) :
  getMcpServers process_env p m = Servers servers →
  is_Some (servers !! s1) →
  is_Some (servers !! s2) →
  "mcp__" +:+ s1 +:+ "__" +:+ tool1 = "mcp__" +:+ s2 +:+ "__" +:+ tool2 →
  s1 = s2 ∧ tool1 = tool2.
Proof.
  intros Hget [d1 H1] [d2 H2] Heq.
  apply getMcpServers_Servers in Hget as [Hs | ->];
    [|by rewrite lookup_empty in H1].
  unfold MCP_SERVERS_BY_PROVIDER in Hs.
  split_lookup Hs; split_lookup H1; split_lookup H2; simpl in Heq;
    first [ discriminate Heq | by simplify_eq ].
Qed.

Lemma tool_server_unique_witness :
  "web-reader" = "web-reader" ∧ "webReader" = "webReader".
Proof.
  eapply (tool_server_unique ∅ "z-ai" None _ "web-reader" "web-reader");
    [reflexivity | by eexists | by eexists | reflexivity].
Defined.

(** X16: [getMcpServers] hands back something that is no mapping of
    descriptors exactly when the provider string is the name of a member
    inherited from [Object.prototype]; no key of the table hides such a
    name. *)
Theorem getMcpServers_inherited_iff
    (process_env : gmap string string) (p : string) (m : option string) :
  (∃ k, getMcpServers process_env p m = PrototypeMember k)
  ↔ p ∈ Object_prototype_keys.
Proof.
  destruct (getMcpServers_cases process_env p m)
    as [(Hp & servers & Hs & Hget) | [(Hp & Hk & Hget) | (Hp & Hk & Hget)]];
    rewrite Hget.
  - split; [by intros [k [=]]|]. intros Hk. exfalso.
    revert Hp Hk. unfold ProviderType, Object_prototype_keys.
    rewrite !elem_of_cons, !elem_of_nil.
    intros [-> | [-> | [-> | []]]] Hk;
      repeat (destruct Hk as [Hk | Hk]; [discriminate Hk|]); done.
  - split; [done | by exists p].
  - split; [by intros [k [=]] | done].
Qed.
